(** * Kafka relay plugin: configuration, TLS policy, init and relay

    A shallow embedding of [src/config.ts] and
    [src/service/kafkaRelayPlugin.ts] (class [KafkaRelayPlugin]).

    JavaScript strings are represented by [string] (UTF-8 encoded, as Rocq
    string literals are); [undefined]/[null] fields by [option]; a call on
    an injected collaborator (logger, tracer, broker client) by an entry in
    a call trace whose outcome is drawn from a [Collaborators] oracle that
    sees the whole history of calls. *)

From Stdlib Require Import String Ascii List Bool Arith Lia.
From Stdlib Require Import Strings.Byte DecimalString.
Import ListNotations.
Local Open Scope string_scope.

(** ** Configuration ([src/config.ts]) *)

Module Config.

(** [ExtendedConfig]. The fields the plugin guards with [??] or tests for
    truthiness are optional here: the validator may leave them unset. *)
Record Configuration := {
  DESTINATION_TRANSPORT_URL : option string;
  PRODUCER_STREAM : string;
  KAFKA_TLS_CA : option string;
  CLIENT_ID : option string;
  NODE_ENV : option string
}.

(** One entry of [additionalEnvironmentVariables]. *)
Record AdditionalConfig := {
  name : string;
  type : string;
  optional : bool
}.

Definition additionalEnvironmentVariables : list AdditionalConfig :=
  [ {| name := "DESTINATION_TRANSPORT_URL"; type := "string"; optional := false |};
    {| name := "PRODUCER_STREAM"; type := "string"; optional := false |};
    {| name := "KAFKA_TLS_CA"; type := "string"; optional := false |};
    {| name := "CLIENT_ID"; type := "string"; optional := true |} ].

End Config.
Import Config.

(** ** JavaScript helpers *)

(** [a ?? b]: the left operand unless it is null or undefined. *)
Definition nullish {A : Type} (a : option A) (b : A) : A :=
  match a with
  | Some x => x
  | None => b
  end.

(** [a ?? b] where [b] may itself be undefined. *)
Definition nullish_opt {A : Type} (a b : option A) : option A :=
  match a with
  | Some x => Some x
  | None => b
  end.

(** Truthiness of a string: only the empty string is falsy. *)
Definition truthy (s : string) : bool :=
  match s with
  | EmptyString => false
  | String _ _ => true
  end.

(** Interpolation of a possibly undefined string in a template literal. *)
Definition template (s : option string) : string := nullish s "undefined".

(** ** Options handed to the broker client *)

(** [tls.ConnectionOptions], the two fields the plugin sets; both are
    optional in the library's type. *)
Record TlsOptions := {
  rejectUnauthorized : option bool;
  ca : option (list string)
}.

(** [ssl?: tls.ConnectionOptions | boolean] *)
Inductive Ssl :=
| SslBool (b : bool)
| SslTls (o : TlsOptions).

Inductive LogLevel := NOTHING | ERROR | WARN | INFO | DEBUG.

(** [KafkaConfig], the argument of [new Kafka(...)]. *)
Record KafkaConfig := {
  clientId : string;
  brokers : list string;
  ssl : Ssl;
  logLevel : LogLevel
}.

(** ** Constructor: derivation of the TLS policy *)

(** [this.configuration.NODE_ENV ?? process.env.NODE_ENV]: the tier
    variable as set, if it is set at all. *)
Definition NODE_ENV_setting (configuration : Configuration)
    (process_env_NODE_ENV : option string) : option string :=
  nullish_opt (NODE_ENV configuration) process_env_NODE_ENV.

(** [this.configuration.NODE_ENV ?? process.env.NODE_ENV ?? 'dev'] *)
Definition tier (configuration : Configuration) (process_env_NODE_ENV : option string) : string :=
  nullish (NODE_ENV_setting configuration process_env_NODE_ENV) "dev".

Definition isDev (configuration : Configuration) (process_env_NODE_ENV : option string) : bool :=
  String.eqb (tier configuration process_env_NODE_ENV) "dev".

Definition derive_ssl (configuration : Configuration) (process_env_NODE_ENV : option string) : Ssl :=
  if isDev configuration process_env_NODE_ENV
  then SslBool false
  else SslTls {| rejectUnauthorized := Some false;
                 ca := Some (match KAFKA_TLS_CA configuration with
                             | Some material => if truthy material then [material] else []
                             | None => []
                             end) |}.

(** The object literal passed to [new Kafka]. *)
Definition kafka_options (configuration : Configuration) (process_env_NODE_ENV : option string) : KafkaConfig :=
  {| clientId := nullish (CLIENT_ID configuration) "relay-plugin";
     brokers := [nullish (DESTINATION_TRANSPORT_URL configuration) "localhost:9092"];
     ssl := derive_ssl configuration process_env_NODE_ENV;
     logLevel := ERROR |}.

(** ** Payloads and their normalisation *)

(** [data: Uint8Array | string]. A Node [Buffer] is a [Uint8Array] for which
    [Buffer.isBuffer] answers true; the other typed arrays (the result of
    [new TextEncoder().encode(..)], say) are kept apart because the code
    branches on that test. *)
Inductive Payload :=
| Text (s : string)
| NodeBuffer (bytes : list byte)
| PlainUint8Array (bytes : list byte).

(** [Buffer.prototype.toString()] with its default encoding: UTF-8 decoding
    in which every maximal ill-formed subsequence becomes U+FFFD. The
    result is given in UTF-8 again, so well-formed input decodes to itself. *)
Module Utf8.

Local Open Scope nat_scope.
Local Open Scope list_scope.

Record Decoder := {
  needed : nat;
  lower : nat;
  upper : nat;
  pending : list byte
}.

Definition idle : Decoder :=
  {| needed := 0; lower := 128; upper := 191; pending := [] |}.

Definition replacement : list byte := [xef; xbf; xbd].

Definition between (lo n hi : nat) : bool := (lo <=? n) && (n <=? hi).

Definition lead (b : byte) : list byte * Decoder :=
  let n := Byte.to_nat b in
  if n <=? 127 then ([b], idle)
  else if between 194 n 223 then
    ([], {| needed := 1; lower := 128; upper := 191; pending := [b] |})
  else if between 224 n 239 then
    ([], {| needed := 2;
            lower := if n =? 224 then 160 else 128;
            upper := if n =? 237 then 159 else 191;
            pending := [b] |})
  else if between 240 n 244 then
    ([], {| needed := 3;
            lower := if n =? 240 then 144 else 128;
            upper := if n =? 244 then 143 else 191;
            pending := [b] |})
  else (replacement, idle).

Definition step (d : Decoder) (b : byte) : list byte * Decoder :=
  match needed d with
  | 0 => lead b
  | S k =>
      if between (lower d) (Byte.to_nat b) (upper d) then
        match k with
        | 0 => (pending d ++ [b], idle)
        | _ => ([], {| needed := k; lower := 128; upper := 191;
                       pending := pending d ++ [b] |})
        end
      else let (out, d') := lead b in (replacement ++ out, d')
  end.

Fixpoint run (d : Decoder) (bytes : list byte) : list byte :=
  match bytes with
  | [] => match needed d with 0 => [] | _ => replacement end
  | b :: rest => let (out, d') := step d b in out ++ run d' rest
  end.

Definition decode (bytes : list byte) : string :=
  string_of_list_byte (run idle bytes).

End Utf8.

Definition decimal (n : nat) : string := NilEmpty.string_of_uint (Nat.to_uint n).

Definition dquote : string := String "034"%char EmptyString.

(** [JSON.stringify] of a typed array: an object keyed by the indices. *)
Fixpoint JSON_entries (i : nat) (bytes : list byte) : list string :=
  match bytes with
  | [] => []
  | b :: rest =>
      (dquote ++ decimal i ++ dquote ++ ":" ++ decimal (Byte.to_nat b))
        :: JSON_entries (S i) rest
  end.

Definition JSON_stringify (bytes : list byte) : string :=
  "{" ++ String.concat "," (JSON_entries 0 bytes) ++ "}".

(** [Buffer.isBuffer(data) ? data.toString()
     : typeof data === 'string' ? data : JSON.stringify(data)] *)
Definition payload_of (data : Payload) : string :=
  match data with
  | NodeBuffer bytes => Utf8.decode bytes
  | Text s => s
  | PlainUint8Array bytes => JSON_stringify bytes
  end.

(** ** Collaborators, exceptions and the call trace *)

(** What a JavaScript [throw] (or a rejected promise) carries, as far as
    the [catch] clause can tell: it only reads [.message]. *)
Inductive Nullish := JsNull | JsUndefined.

Inductive JsThrown :=
| JsError (message : string)   (* an object whose message is this string *)
| JsNoMessage                  (* a value without a message: reads undefined *)
| JsNullish (value : Nullish). (* null or undefined: reading a property throws *)

Inductive Outcome (A : Type) :=
| Normal (a : A)
| Thrown (e : JsThrown).
Arguments Normal {A} a.
Arguments Thrown {A} e.

(** Object identities of the handles the collaborators return. *)
Definition Transaction := nat.
Definition Span := nat.
Definition Producer := nat.

Record Message := { value : string }.

Record ProducerRecord := {
  topic : string;
  messages : list Message
}.

(** One call on a collaborator, with what it returned or threw. *)
Inductive Event :=
| StartTransaction (name : string) (r : Outcome (option Transaction))
| StartSpan (name : string) (r : Outcome (option Span))
| SpanEnd (s : Span) (r : Outcome unit)
| TransactionEnd (t : Transaction) (r : Outcome unit)
| LoggerLog (message component : string) (r : Outcome unit)
| LoggerError (message component : string) (r : Outcome unit)
| KafkaProducer (r : Outcome Producer)
| ProducerConnect (p : Producer) (r : Outcome unit)
| ProducerSend (p : Producer) (record : ProducerRecord) (r : Outcome unit).

(** The behaviour of the tracer ([Apm]), the logger ([LoggerService]) and
    the broker client: each answer may depend on every call made so far.
    [startTransaction] and [startSpan] may return null. *)
Record Collaborators := {
  apm_startTransaction : list Event -> string -> Outcome (option Transaction);
  apm_startSpan : list Event -> string -> Outcome (option Span);
  span_end : list Event -> Span -> Outcome unit;
  transaction_end : list Event -> Transaction -> Outcome unit;
  loggerService_log : list Event -> string -> string -> Outcome unit;
  loggerService_error : list Event -> string -> string -> Outcome unit;
  kafka_producer : list Event -> Outcome Producer;
  producer_connect : list Event -> Producer -> Outcome unit;
  producer_send : list Event -> Producer -> ProducerRecord -> Outcome unit
}.

(** ** The plugin instance and the machine it runs on *)

Record KafkaRelayPlugin := {
  kafka : KafkaConfig;
  producer : option Producer;
  configuration : Configuration
}.

(** [apmTransaction] is the [let] of the running [relay] activation. *)
Record Machine := {
  this : KafkaRelayPlugin;
  apmTransaction : option Transaction;
  trace : list Event
}.

Definition M (A : Type) : Type := Machine -> Outcome A * Machine.

Definition ret {A : Type} (a : A) : M A := fun m => (Normal a, m).

Definition throw {A : Type} (e : JsThrown) : M A := fun m => (Thrown e, m).

Definition bind {A B : Type} (x : M A) (f : A -> M B) : M B :=
  fun m =>
    match x m with
    | (Normal a, m') => f a m'
    | (Thrown e, m') => (Thrown e, m')
    end.

Declare Scope js_scope.
Delimit Scope js_scope with js.
Notation "x <- a ;; b" := (bind a (fun x => b))
  (at level 100, a at next level, right associativity) : js_scope.
Notation "a ;; b" := (bind a (fun _ => b))
  (at level 100, right associativity) : js_scope.
Local Open Scope js_scope.

(** [try { body } catch (error) { handler }] *)
Definition try_catch {A : Type} (body : M A) (handler : JsThrown -> M A) : M A :=
  fun m =>
    match body m with
    | (Thrown e, m') => handler e m'
    | r => r
    end.

(** [try { body } finally { final }]: an exception of [final] replaces
    the outcome of [body]. *)
Definition try_finally {A : Type} (body : M A) (final : M unit) : M A :=
  fun m =>
    let (r, m') := body m in
    match final m' with
    | (Normal _, m'') => (r, m'')
    | (Thrown e, m'') => (Thrown e, m'')
    end.

(** [o?.f()] *)
Definition optional {A : Type} (o : option A) (f : A -> M unit) : M unit :=
  match o with
  | Some a => f a
  | None => ret tt
  end.

Definition record_event (e : Event) (m : Machine) : Machine :=
  {| this := this m; apmTransaction := apmTransaction m; trace := (trace m ++ [e])%list |}.

Definition get_configuration : M Configuration :=
  fun m => (Normal (configuration (this m)), m).

Definition get_producer : M (option Producer) :=
  fun m => (Normal (producer (this m)), m).

Definition set_producer (p : option Producer) : M unit :=
  fun m => (Normal tt,
            {| this := {| kafka := kafka (this m); producer := p;
                          configuration := configuration (this m) |};
               apmTransaction := apmTransaction m; trace := trace m |}).

Definition get_apmTransaction : M (option Transaction) :=
  fun m => (Normal (apmTransaction m), m).

Definition set_apmTransaction (t : option Transaction) : M unit :=
  fun m => (Normal tt, {| this := this m; apmTransaction := t; trace := trace m |}).

(** [KafkaRelayPlugin.name] *)
Definition KafkaRelayPlugin_name : string := "KafkaRelayPlugin".

(** Reading [.message] of null or undefined raises a [TypeError] whose
    message names the value. *)
Definition TypeError_message (value : Nullish) : string :=
  "Cannot read properties of "
  ++ match value with JsNull => "null" | JsUndefined => "undefined" end
  ++ " (reading 'message')".

Section Plugin.

Variable env : Collaborators.

Definition call_startTransaction (name : string) : M (option Transaction) :=
  fun m => let r := apm_startTransaction env (trace m) name in
           (r, record_event (StartTransaction name r) m).

Definition call_startSpan (name : string) : M (option Span) :=
  fun m => let r := apm_startSpan env (trace m) name in
           (r, record_event (StartSpan name r) m).

Definition call_span_end (s : Span) : M unit :=
  fun m => let r := span_end env (trace m) s in
           (r, record_event (SpanEnd s r) m).

Definition call_transaction_end (t : Transaction) : M unit :=
  fun m => let r := transaction_end env (trace m) t in
           (r, record_event (TransactionEnd t r) m).

Definition call_log (message component : string) : M unit :=
  fun m => let r := loggerService_log env (trace m) message component in
           (r, record_event (LoggerLog message component r) m).

Definition call_error (message component : string) : M unit :=
  fun m => let r := loggerService_error env (trace m) message component in
           (r, record_event (LoggerError message component r) m).

Definition call_producer : M Producer :=
  fun m => let r := kafka_producer env (trace m) in
           (r, record_event (KafkaProducer r) m).

Definition call_connect (p : Producer) : M unit :=
  fun m => let r := producer_connect env (trace m) p in
           (r, record_event (ProducerConnect p r) m).

Definition call_send (p : Producer) (record : ProducerRecord) : M unit :=
  fun m => let r := producer_send env (trace m) p record in
           (r, record_event (ProducerSend p record r) m).

(** *** [init] *)

Definition init : M unit :=
  configuration <- get_configuration ;;
  call_log ("Initializing Kafka producer for broker: "
            ++ template (DESTINATION_TRANSPORT_URL configuration))
           KafkaRelayPlugin_name ;;
  fresh <- call_producer ;;
  set_producer (Some fresh) ;;
  call_connect fresh ;;
  call_log "Kafka producer connected" KafkaRelayPlugin_name.

(** *** [relay] *)

(** The [try] block. *)
Definition relay_try (data : Payload) : M unit :=
  transaction <- call_startTransaction KafkaRelayPlugin_name ;;
  set_apmTransaction transaction ;;
  span <- call_startSpan "relay" ;;
  configuration <- get_configuration ;;
  call_log ("Sending data to Kafka topic: " ++ PRODUCER_STREAM configuration)
           KafkaRelayPlugin_name ;;
  let payload := payload_of data in
  handle <- get_producer ;;
  optional handle (fun p =>
    call_send p {| topic := PRODUCER_STREAM configuration;
                   messages := [ {| value := payload |} ] |}) ;;
  optional span call_span_end.

(** [(error as Error).message] inside the template literal. *)
Definition message_of (error : JsThrown) : M string :=
  match error with
  | JsError message => ret message
  | JsNoMessage => ret "undefined"
  | JsNullish value => throw (JsError (TypeError_message value))
  end.

(** The [catch] clause. The [?.] on [this.loggerService] never
    short-circuits: the field is assigned by the constructor and its type
    is not optional. *)
Definition relay_catch (error : JsThrown) : M unit :=
  message <- message_of error ;;
  call_error ("Kafka relay error: " ++ message) KafkaRelayPlugin_name.

(** The [finally] clause. *)
Definition relay_finally : M unit :=
  transaction <- get_apmTransaction ;;
  optional transaction call_transaction_end.

Definition relay (data : Payload) : M unit :=
  set_apmTransaction None ;;
  try_finally (try_catch (relay_try data) relay_catch) relay_finally.

End Plugin.

(** The constructor, given what [validateProcessorConfig] returned and the
    process environment's [NODE_ENV]. *)
Definition new_KafkaRelayPlugin (validated : Configuration)
    (process_env_NODE_ENV : option string) : Machine :=
  {| this := {| kafka := kafka_options validated process_env_NODE_ENV;
                producer := None;
                configuration := validated |};
     apmTransaction := None;
     trace := [] |}.

(** ** Observations and test fixtures *)

(** The [ssl] option the constructor passes to the broker client. *)
Definition constructed_ssl (configuration : Configuration)
    (process_env_NODE_ENV : option string) : Ssl :=
  ssl (kafka (this (new_KafkaRelayPlugin configuration process_env_NODE_ENV))).

(** The certificate authorities of the non-development policy. *)
Definition authorities (configuration : Configuration) : list string :=
  match KAFKA_TLS_CA configuration with
  | Some material => if truthy material then [material] else []
  | None => []
  end.

(** [makeConfig] of the test suite, with the CA material and the tier
    variable left open. *)
Definition makeConfig (material : option string) (node_env : option string) : Configuration :=
  {| DESTINATION_TRANSPORT_URL := Some "localhost:9092";
     PRODUCER_STREAM := "test-topic";
     KAFKA_TLS_CA := material;
     CLIENT_ID := Some "test-client";
     NODE_ENV := node_env |}.


(** The entry state of [relay]: [let apmTransaction = null]. *)
Definition relay_entry (m : Machine) : Machine :=
  {| this := this m; apmTransaction := None; trace := trace m |}.

(** The instance with another producer handle, all else equal. *)
Definition with_producer (handle : option Producer) (m : Machine) : Machine :=
  {| this := {| kafka := kafka (this m); producer := handle;
                configuration := configuration (this m) |};
     apmTransaction := apmTransaction m; trace := trace m |}.

(** The collaborator calls a computation makes when run from [m]. *)
Definition calls_of {A : Type} (x : M A) (m : Machine) : list Event :=
  skipn (List.length (trace m)) (trace (snd (x m))).

(** Publish requests submitted to a producer, whatever their outcome. *)
Fixpoint sends (t : list Event) : list (Producer * ProducerRecord) :=
  match t with
  | [] => []
  | ProducerSend p record _ :: rest => (p, record) :: sends rest
  | _ :: rest => sends rest
  end.

(** Connection attempts. *)
Fixpoint connects (t : list Event) : list Producer :=
  match t with
  | [] => []
  | ProducerConnect p _ :: rest => p :: connects rest
  | _ :: rest => connects rest
  end.

(** Messages given to the error logger. *)
Fixpoint error_logs (t : list Event) : list string :=
  match t with
  | [] => []
  | LoggerError message _ _ :: rest => message :: error_logs rest
  | _ :: rest => error_logs rest
  end.

(** Messages given to the informational logger. *)
Fixpoint info_logs (t : list Event) : list string :=
  match t with
  | [] => []
  | LoggerLog message _ _ :: rest => message :: info_logs rest
  | _ :: rest => info_logs rest
  end.

(** Spans handed out by [startSpan] (a null result starts nothing). *)
Fixpoint spans_started (t : list Event) : list Span :=
  match t with
  | [] => []
  | StartSpan _ (Normal (Some s)) :: rest => s :: spans_started rest
  | _ :: rest => spans_started rest
  end.

(** Transactions handed out by [startTransaction]. *)
Fixpoint transactions_started (t : list Event) : list Transaction :=
  match t with
  | [] => []
  | StartTransaction _ (Normal (Some x)) :: rest => x :: transactions_started rest
  | _ :: rest => transactions_started rest
  end.

(** How often [end()] was called on a span. *)
Fixpoint span_ends (s : Span) (t : list Event) : nat :=
  match t with
  | [] => 0
  | SpanEnd s' _ :: rest => (if Nat.eqb s s' then 1 else 0) + span_ends s rest
  | _ :: rest => span_ends s rest
  end.

(** How often [end()] was called on a transaction. *)
Fixpoint transaction_ends (x : Transaction) (t : list Event) : nat :=
  match t with
  | [] => 0
  | TransactionEnd x' _ :: rest => (if Nat.eqb x x' then 1 else 0) + transaction_ends x rest
  | _ :: rest => transaction_ends x rest
  end.

(** Collaborators whose calls made before the publish step all return. *)
Definition tracer_starts (env : Collaborators) : Prop :=
  forall t name,
    (exists x, apm_startTransaction env t name = Normal x)
    /\ (exists s, apm_startSpan env t name = Normal s).

Definition logger_logs (env : Collaborators) : Prop :=
  forall t message component, loggerService_log env t message component = Normal tt.

Definition tracer_ends (env : Collaborators) : Prop :=
  forall t h, span_end env t h = Normal tt /\ transaction_end env t h = Normal tt.

(** The mocks of the test suite: every call succeeds; each started handle
    and each producer is a new object, numbered by the length of the
    history. *)
Definition mocks : Collaborators :=
  {| apm_startTransaction := fun t _ => Normal (Some (List.length t));
     apm_startSpan := fun t _ => Normal (Some (List.length t));
     span_end := fun _ _ => Normal tt;
     transaction_end := fun _ _ => Normal tt;
     loggerService_log := fun _ _ _ => Normal tt;
     loggerService_error := fun _ _ _ => Normal tt;
     kafka_producer := fun t => Normal (List.length t);
     producer_connect := fun _ _ => Normal tt;
     producer_send := fun _ _ _ => Normal tt |}.

(** [mockProducer.send.mockRejectedValueOnce(new Error('Send failed'))] *)
Definition mocks_send_rejects : Collaborators :=
  {| apm_startTransaction := apm_startTransaction mocks;
     apm_startSpan := apm_startSpan mocks;
     span_end := span_end mocks;
     transaction_end := transaction_end mocks;
     loggerService_log := loggerService_log mocks;
     loggerService_error := loggerService_error mocks;
     kafka_producer := kafka_producer mocks;
     producer_connect := producer_connect mocks;
     producer_send := fun _ _ _ => Thrown (JsError "Send failed") |}.

(** A broker that refuses the connection. *)
Definition mocks_connect_rejects : Collaborators :=
  {| apm_startTransaction := apm_startTransaction mocks;
     apm_startSpan := apm_startSpan mocks;
     span_end := span_end mocks;
     transaction_end := transaction_end mocks;
     loggerService_log := loggerService_log mocks;
     loggerService_error := loggerService_error mocks;
     kafka_producer := kafka_producer mocks;
     producer_connect := fun _ _ => Thrown (JsError "Connection refused");
     producer_send := producer_send mocks |}.

(** A logging sink that is down: both of its methods throw. *)
Definition mocks_logger_down : Collaborators :=
  {| apm_startTransaction := apm_startTransaction mocks;
     apm_startSpan := apm_startSpan mocks;
     span_end := span_end mocks;
     transaction_end := transaction_end mocks;
     loggerService_log := fun _ _ _ => Thrown (JsError "logger unavailable");
     loggerService_error := fun _ _ _ => Thrown (JsError "logger unavailable");
     kafka_producer := kafka_producer mocks;
     producer_connect := producer_connect mocks;
     producer_send := producer_send mocks |}.

(** The instance of the test suite, as constructed and after [init]. *)
Definition constructed : Machine :=
  new_KafkaRelayPlugin (makeConfig (Some "FAKE_CA_CERT") None) (Some "test").

Definition initialized : Machine := snd (init mocks constructed).

(** ** Further observations and fixtures *)

(** The message [init] logs before it touches the broker client. *)
Definition init_message (settings : Configuration) : string :=
  "Initializing Kafka producer for broker: "
  ++ template (DESTINATION_TRANSPORT_URL settings).

(** The message [relay] logs before it publishes. *)
Definition relay_message (settings : Configuration) : string :=
  "Sending data to Kafka topic: " ++ PRODUCER_STREAM settings.

(** The publish request [relay] builds for a payload. *)
Definition relay_record (settings : Configuration) (data : Payload) : ProducerRecord :=
  {| topic := PRODUCER_STREAM settings;
     messages := [ {| value := payload_of data |} ] |}.

(** Calls on the broker client that create or connect a producer. *)
Definition is_connection_call (e : Event) : bool :=
  match e with
  | KafkaProducer _ | ProducerConnect _ _ => true
  | _ => false
  end.

(** The component name a logger call was tagged with. *)
Definition log_component (e : Event) : option string :=
  match e with
  | LoggerLog _ component _ | LoggerError _ component _ => Some component
  | _ => None
  end.

(** The [end()] calls a run of [relay] makes for the handles it holds. *)
Definition end_calls (transaction : option Transaction) (span : option Span) : list Event :=
  (match span with Some s => [SpanEnd s (Normal tt)] | None => [] end
   ++ match transaction with Some x => [TransactionEnd x (Normal tt)] | None => [] end)%list.

(** A producer whose publish calls return. *)
Definition send_returns (env : Collaborators) : Prop :=
  forall t p record, producer_send env t p record = Normal tt.

(** Text made of ASCII characters only. *)
Definition ascii_only (s : string) : Prop :=
  Forall (fun b => Byte.to_nat b <= 127) (list_byte_of_string s).

(** An inactive APM agent: both start calls return null. *)
Definition mocks_apm_inactive : Collaborators :=
  {| apm_startTransaction := fun _ _ => Normal None;
     apm_startSpan := fun _ _ => Normal None;
     span_end := span_end mocks;
     transaction_end := transaction_end mocks;
     loggerService_log := loggerService_log mocks;
     loggerService_error := loggerService_error mocks;
     kafka_producer := kafka_producer mocks;
     producer_connect := producer_connect mocks;
     producer_send := producer_send mocks |}.

(** A tracer whose [startSpan] throws. *)
Definition mocks_span_fails : Collaborators :=
  {| apm_startTransaction := apm_startTransaction mocks;
     apm_startSpan := fun _ _ => Thrown (JsError "apm unavailable");
     span_end := span_end mocks;
     transaction_end := transaction_end mocks;
     loggerService_log := loggerService_log mocks;
     loggerService_error := loggerService_error mocks;
     kafka_producer := kafka_producer mocks;
     producer_connect := producer_connect mocks;
     producer_send := producer_send mocks |}.

(** A producer whose [send] rejects with an arbitrary value. *)
Definition mocks_send_throws (thrown : JsThrown) : Collaborators :=
  {| apm_startTransaction := apm_startTransaction mocks;
     apm_startSpan := apm_startSpan mocks;
     span_end := span_end mocks;
     transaction_end := transaction_end mocks;
     loggerService_log := loggerService_log mocks;
     loggerService_error := loggerService_error mocks;
     kafka_producer := kafka_producer mocks;
     producer_connect := producer_connect mocks;
     producer_send := fun _ _ _ => Thrown thrown |}.

(** A call made before the publish step that threw. *)
Definition failed_before_publish (e : Event) : bool :=
  match e with
  | StartTransaction _ (Thrown _) | StartSpan _ (Thrown _) | LoggerLog _ _ (Thrown _) => true
  | _ => false
  end.

Definition is_span_start (e : Event) : bool :=
  match e with
  | StartSpan _ _ => true
  | _ => false
  end.

(** A tracer whose first [startSpan] throws and whose later ones return. *)
Definition mocks_span_fails_once : Collaborators :=
  {| apm_startTransaction := apm_startTransaction mocks;
     apm_startSpan := fun t name =>
       if existsb is_span_start t then apm_startSpan mocks t name
       else Thrown (JsError "apm unavailable");
     span_end := span_end mocks;
     transaction_end := transaction_end mocks;
     loggerService_log := loggerService_log mocks;
     loggerService_error := loggerService_error mocks;
     kafka_producer := kafka_producer mocks;
     producer_connect := producer_connect mocks;
     producer_send := producer_send mocks |}.

(** * Properties *)

(** ** The TLS policy derived at construction *)

Lemma isDev_true_iff configuration process_env_NODE_ENV :
  isDev configuration process_env_NODE_ENV = true
  <-> tier configuration process_env_NODE_ENV = "dev".
Proof. unfold isDev. apply String.eqb_eq. Qed.

Lemma isDev_false_iff configuration process_env_NODE_ENV :
  isDev configuration process_env_NODE_ENV = false
  <-> tier configuration process_env_NODE_ENV <> "dev".
Proof. unfold isDev. apply String.eqb_neq. Qed.

Lemma tier_unset configuration process_env_NODE_ENV :
  NODE_ENV_setting configuration process_env_NODE_ENV = None ->
  tier configuration process_env_NODE_ENV = "dev".
Proof. unfold tier. intros ->. reflexivity. Qed.

Lemma tier_set configuration process_env_NODE_ENV v :
  NODE_ENV_setting configuration process_env_NODE_ENV = Some v ->
  tier configuration process_env_NODE_ENV = v.
Proof. unfold tier. intros ->. reflexivity. Qed.

Lemma constructed_ssl_dev configuration process_env_NODE_ENV :
  tier configuration process_env_NODE_ENV = "dev" ->
  constructed_ssl configuration process_env_NODE_ENV = SslBool false.
Proof.
  intros H. unfold constructed_ssl; simpl. unfold derive_ssl.
  apply isDev_true_iff in H. rewrite H. reflexivity.
Qed.

Lemma constructed_ssl_other configuration process_env_NODE_ENV :
  tier configuration process_env_NODE_ENV <> "dev" ->
  constructed_ssl configuration process_env_NODE_ENV
  = SslTls {| rejectUnauthorized := Some false;
              ca := Some (authorities configuration) |}.
Proof.
  intros H. unfold constructed_ssl; simpl. unfold derive_ssl.
  apply isDev_false_iff in H. rewrite H. reflexivity.
Qed.

(** C3: whenever the environment tier resolves to development, in
    particular when the tier variable is set nowhere, the [ssl] option
    passed to the broker client is [false], whatever the CA material. *)
Theorem C3_development_tier_disables_tls :
  forall configuration process_env_NODE_ENV,
    tier configuration process_env_NODE_ENV = "dev"
    \/ (NODE_ENV configuration = None /\ process_env_NODE_ENV = None) ->
    constructed_ssl configuration process_env_NODE_ENV = SslBool false.
Proof.
  intros configuration process_env_NODE_ENV [H | [Hc He]].
  - now apply constructed_ssl_dev.
  - apply constructed_ssl_dev, tier_unset.
    unfold NODE_ENV_setting. rewrite Hc, He. reflexivity.
Qed.

Lemma C3_development_tier_disables_tls_witness :
  constructed_ssl (makeConfig (Some "FAKE_CA_CERT") None) None = SslBool false
  /\ constructed_ssl (makeConfig (Some "FAKE_CA_CERT") (Some "dev")) (Some "prod")
     = SslBool false.
Proof.
  split.
  - apply (C3_development_tier_disables_tls
             (makeConfig (Some "FAKE_CA_CERT") None) None).
    right. split; reflexivity.
  - apply (C3_development_tier_disables_tls
             (makeConfig (Some "FAKE_CA_CERT") (Some "dev")) (Some "prod")).
    left. reflexivity.
Defined.

(** C4: whenever the environment tier is not development, the [ssl] option
    is an object with [rejectUnauthorized: false] and a defined [ca] list:
    the single CA material when that is present and non-empty, the empty
    list when it is absent. *)
Theorem C4_other_tier_tls_policy :
  forall configuration process_env_NODE_ENV,
    tier configuration process_env_NODE_ENV <> "dev" ->
    exists trusted : list string,
      constructed_ssl configuration process_env_NODE_ENV
      = SslTls {| rejectUnauthorized := Some false; ca := Some trusted |}
      /\ (forall material, KAFKA_TLS_CA configuration = Some material ->
                           material <> EmptyString -> trusted = [material])
      /\ (KAFKA_TLS_CA configuration = None -> trusted = []).
Proof.
  intros configuration process_env_NODE_ENV H.
  exists (authorities configuration). split; [| split].
  - now apply constructed_ssl_other.
  - intros material Hm Hne. unfold authorities. rewrite Hm.
    destruct material; [congruence | reflexivity].
  - intros Hm. unfold authorities. rewrite Hm. reflexivity.
Qed.

Lemma C4_other_tier_tls_policy_witness :
  exists trusted : list string,
    constructed_ssl (makeConfig None None) (Some "prod")
    = SslTls {| rejectUnauthorized := Some false; ca := Some trusted |}
    /\ (forall material, KAFKA_TLS_CA (makeConfig None None) = Some material ->
                         material <> EmptyString -> trusted = [material])
    /\ (KAFKA_TLS_CA (makeConfig None None) = None -> trusted = []).
Proof.
  apply (C4_other_tier_tls_policy (makeConfig None None) (Some "prod")).
  unfold tier; simpl. discriminate.
Defined.

(** The scenarios of the test suite. *)
Example ssl_prod_with_ca :
  constructed_ssl (makeConfig (Some "FAKE_CA_CERT") None) (Some "prod")
  = SslTls {| rejectUnauthorized := Some false; ca := Some ["FAKE_CA_CERT"] |}.
Proof. reflexivity. Qed.

Example ssl_prod_without_ca :
  constructed_ssl (makeConfig None None) (Some "prod")
  = SslTls {| rejectUnauthorized := Some false; ca := Some [] |}.
Proof. reflexivity. Qed.

Example ssl_prod_empty_ca :
  constructed_ssl (makeConfig (Some EmptyString) None) (Some "prod")
  = SslTls {| rejectUnauthorized := Some false; ca := Some [] |}.
Proof. reflexivity. Qed.

(** C9: the tier test is exact equality with ['dev']. The connection is
    plaintext exactly when the tier variable is ['dev'] or set nowhere; any
    other value, ['development'] and ['DEV'] included, gives the
    non-development TLS policy. *)
Theorem C9_tier_test_is_exact_equality :
  forall configuration process_env_NODE_ENV,
    (constructed_ssl configuration process_env_NODE_ENV = SslBool false
     <-> NODE_ENV_setting configuration process_env_NODE_ENV = Some "dev"
         \/ NODE_ENV_setting configuration process_env_NODE_ENV = None)
    /\ (forall v, NODE_ENV_setting configuration process_env_NODE_ENV = Some v ->
                  v <> "dev" ->
                  constructed_ssl configuration process_env_NODE_ENV
                  = SslTls {| rejectUnauthorized := Some false;
                              ca := Some (authorities configuration) |})
    /\ (NODE_ENV_setting configuration process_env_NODE_ENV = Some "development"
        \/ NODE_ENV_setting configuration process_env_NODE_ENV = Some "DEV" ->
        constructed_ssl configuration process_env_NODE_ENV <> SslBool false).
Proof.
  intros configuration process_env_NODE_ENV.
  assert (Hother : forall v,
             NODE_ENV_setting configuration process_env_NODE_ENV = Some v ->
             v <> "dev" ->
             constructed_ssl configuration process_env_NODE_ENV
             = SslTls {| rejectUnauthorized := Some false;
                         ca := Some (authorities configuration) |}).
  { intros v Hv Hne. apply constructed_ssl_other.
    rewrite (tier_set _ _ _ Hv). exact Hne. }
  split; [| split].
  - split.
    + intros Hssl.
      destruct (NODE_ENV_setting configuration process_env_NODE_ENV) as [v |] eqn:Hv;
        [| now right].
      left. destruct (String.eqb_spec v "dev") as [-> | Hne]; [reflexivity |].
      rewrite (Hother v eq_refl Hne) in Hssl. discriminate.
    + intros [Hv | Hv]; apply constructed_ssl_dev.
      * now apply tier_set.
      * now apply tier_unset.
  - exact Hother.
  - intros [Hv | Hv] Hssl;
      rewrite (Hother _ Hv) in Hssl; discriminate.
Qed.

Lemma C9_tier_test_is_exact_equality_witness :
  constructed_ssl (makeConfig (Some "FAKE_CA_CERT") (Some "development")) None
  = SslTls {| rejectUnauthorized := Some false; ca := Some ["FAKE_CA_CERT"] |}
  /\ constructed_ssl (makeConfig None None) (Some "DEV") <> SslBool false.
Proof.
  split.
  - apply (proj1 (proj2 (C9_tier_test_is_exact_equality
                           (makeConfig (Some "FAKE_CA_CERT") (Some "development"))
                           None)) "development").
    + reflexivity.
    + discriminate.
  - apply (proj2 (proj2 (C9_tier_test_is_exact_equality
                           (makeConfig None None) (Some "DEV")))).
    right. reflexivity.
Defined.

(** ** Payload normalisation *)

Lemma lead_ascii b :
  Byte.to_nat b <= 127 -> Utf8.lead b = ([b], Utf8.idle).
Proof.
  intros H. unfold Utf8.lead.
  destruct (Nat.leb_spec (Byte.to_nat b) 127); [reflexivity | lia].
Qed.

(** ASCII bytes decode to themselves. *)
Lemma run_ascii bytes :
  Forall (fun b => Byte.to_nat b <= 127) bytes ->
  Utf8.run Utf8.idle bytes = bytes.
Proof.
  induction 1 as [| b rest Hb _ IH]; [reflexivity |].
  cbn [Utf8.run]. unfold Utf8.step. cbn [Utf8.needed Utf8.idle].
  rewrite (lead_ascii b Hb). cbn [app]. now rewrite IH.
Qed.

(** A truncated sequence and a stray byte each become one U+FFFD. *)
Example decode_ill_formed :
  Utf8.run Utf8.idle [x68; xe2; x82; x69; xff]
  = [x68; xef; xbf; xbd; x69; xef; xbf; xbd].
Proof. reflexivity. Qed.

Example JSON_stringify_empty : JSON_stringify [] = "{}".
Proof. reflexivity. Qed.

Lemma payload_of_text s : payload_of (Text s) = s.
Proof. reflexivity. Qed.

(** ** Symbolic execution of [init] and [relay] *)

Lemma skipn_prefix {A : Type} (prefix rest : list A) :
  skipn (List.length prefix) (prefix ++ rest)%list = rest.
Proof. induction prefix as [| a prefix IH]; simpl; auto. Qed.

(** Unfolds the monadic plumbing, leaving the collaborators' answers. *)
Ltac unfold_plugin :=
  unfold relay, relay_try, relay_catch, relay_finally, init, message_of,
    try_finally, try_catch, optional, bind, ret, throw,
    call_startTransaction, call_startSpan, call_span_end, call_transaction_end,
    call_log, call_error, call_producer, call_connect, call_send,
    get_configuration, get_producer, set_producer, get_apmTransaction,
    set_apmTransaction, record_event, relay_entry, with_producer in *;
  cbn [fst snd this apmTransaction trace producer configuration kafka] in *.

(** Case analysis on the next collaborator answer the goal inspects. *)
Ltac next_answer :=
  match goal with
  | |- context [match ?x with _ => _ end] =>
      match x with
      | context [match _ with _ => _ end] => fail 1
      | _ => destruct x eqn:?
      end
  | |- context [let (_, _) := ?x in _] =>
      match x with
      | context [match _ with _ => _ end] => fail 1
      | _ => destruct x eqn:?
      end
  end;
  cbn [fst snd this apmTransaction trace producer configuration kafka] in *.

Ltac units := repeat match goal with u : unit |- _ => destruct u end.

Ltac run_plugin := unfold_plugin; repeat next_answer; units.

(** Brings a trace built by successive calls to the form [before ++ new]. *)
Ltac normalize_trace :=
  repeat rewrite <- app_assoc; cbn [app].

(** [relay] is the [try]/[catch]/[finally] statement run from its entry
    state. *)
Lemma relay_unfold env data m :
  relay env data m
  = try_finally (try_catch (relay_try env data) (relay_catch env))
                (relay_finally env) (relay_entry m).
Proof. reflexivity. Qed.

(** Every run of [relay] only appends to the trace. *)
Lemma relay_extends_trace env data m :
  trace (snd (relay env data m))
  = (trace m ++ calls_of (relay env data) m)%list.
Proof.
  unfold calls_of.
  run_plugin; normalize_trace; rewrite skipn_prefix; reflexivity.
Qed.

Lemma init_extends_trace env m :
  trace (snd (init env m)) = (trace m ++ calls_of (init env) m)%list.
Proof.
  unfold calls_of.
  run_plugin; normalize_trace; rewrite skipn_prefix; reflexivity.
Qed.

(** ** What [relay] publishes *)

(** The publish request [relay] builds for [data]. *)
Lemma relay_sends_at_most_once env data m :
  sends (calls_of (relay env data) m) = []
  \/ exists p,
      producer (this m) = Some p
      /\ sends (calls_of (relay env data) m)
         = [(p, {| topic := PRODUCER_STREAM (configuration (this m));
                   messages := [ {| value := payload_of data |} ] |})].
Proof.
  destruct m as [[options handle settings] local history].
  unfold calls_of.
  run_plugin; normalize_trace; rewrite skipn_prefix; cbn [sends];
    solve [ now left | right; eexists; split; reflexivity ].
Qed.

(** Discharges the runs in which a collaborator call assumed to return
    has thrown. *)
Ltac returns_by Hstart Hlog :=
  match goal with
  | H : apm_startTransaction ?env ?t ?n = Thrown _ |- _ =>
      destruct (Hstart t n) as [[? ?] _]; congruence
  | H : apm_startSpan ?env ?t ?n = Thrown _ |- _ =>
      destruct (Hstart t n) as [_ [? ?]]; congruence
  | H : loggerService_log ?env ?t ?a ?b = Thrown _ |- _ =>
      rewrite (Hlog t a b) in H; discriminate
  end.

Lemma relay_publishes_payload env data m p :
  producer (this m) = Some p ->
  tracer_starts env ->
  logger_logs env ->
  sends (calls_of (relay env data) m)
  = [(p, {| topic := PRODUCER_STREAM (configuration (this m));
            messages := [ {| value := payload_of data |} ] |})].
Proof.
  destruct m as [[options handle settings] local history].
  cbn [this producer]. intros -> Hstart Hlog.
  unfold calls_of.
  run_plugin; try returns_by Hstart Hlog;
    normalize_trace; rewrite skipn_prefix; reflexivity.
Qed.

(** C5, the claim as stated fails: [relay(text)] submits no publish
    request on the freshly constructed instance, where the optional call
    is skipped, nor on an initialised one when a call made before the
    publish step (here [startSpan]) throws. *)
Lemma C5_counterexample :
  sends (calls_of (relay mocks (Text "message")) constructed) = []
  /\ sends (calls_of (relay mocks_span_fails (Text "message")) initialized) = []
  /\ ~ (forall env text m,
          exists p,
            sends (calls_of (relay env (Text text)) m)
            = [(p, {| topic := PRODUCER_STREAM (configuration (this m));
                      messages := [ {| value := text |} ] |})]).
Proof.
  split; [reflexivity | split; [reflexivity |]].
  intros H.
  destruct (H mocks "message" constructed) as [p Hp].
  discriminate Hp.
Qed.

(** C5, amended: on an instance that holds a producer, with a tracer and
    a logger whose calls before the publish step return, [relay(text)]
    submits exactly one publish request: to that producer, on the
    configured stream, with the single message [{value: text}]. Whatever
    the collaborators do, it never submits more than that one request. *)
Theorem C5_relay_text_publishes_text :
  forall env text m,
    (forall p,
        producer (this m) = Some p ->
        tracer_starts env ->
        logger_logs env ->
        sends (calls_of (relay env (Text text)) m)
        = [(p, {| topic := PRODUCER_STREAM (configuration (this m));
                  messages := [ {| value := text |} ] |})])
    /\ (sends (calls_of (relay env (Text text)) m) = []
        \/ exists p,
            sends (calls_of (relay env (Text text)) m)
            = [(p, {| topic := PRODUCER_STREAM (configuration (this m));
                      messages := [ {| value := text |} ] |})]).
Proof.
  intros env text m. split.
  - intros p Hp Hstart Hlog.
    exact (relay_publishes_payload env (Text text) m p Hp Hstart Hlog).
  - destruct (relay_sends_at_most_once env (Text text) m) as [H | [p [_ H]]].
    + now left.
    + right. exists p. exact H.
Qed.

Lemma C5_relay_text_publishes_text_witness :
  sends (calls_of (relay mocks (Text "message")) initialized)
  = [(1, {| topic := "test-topic"; messages := [ {| value := "message" |} ] |})].
Proof.
  apply (proj1 (C5_relay_text_publishes_text mocks "message" initialized) 1).
  - reflexivity.
  - intros t name. split; eexists; reflexivity.
  - intros t message component. reflexivity.
Defined.

(** A [Buffer] is published as its decoded text. *)
Lemma relay_buffer_publishes_decoded env bytes m p :
  producer (this m) = Some p ->
  tracer_starts env ->
  logger_logs env ->
  sends (calls_of (relay env (NodeBuffer bytes)) m)
  = [(p, {| topic := PRODUCER_STREAM (configuration (this m));
            messages := [ {| value := Utf8.decode bytes |} ] |})].
Proof. exact (relay_publishes_payload env (NodeBuffer bytes) m p). Qed.

Example relay_buffer_data :
  sends (calls_of (relay mocks (NodeBuffer (list_byte_of_string "buffer-data"))) initialized)
  = [(1, {| topic := "test-topic"; messages := [ {| value := "buffer-data" |} ] |})].
Proof. reflexivity. Qed.

(** C6: a byte sequence that is a [Uint8Array] but not a [Buffer], here
    the two bytes of ["hi"], takes the [JSON.stringify] branch: the value
    published is the index-keyed object text, not the decoded string. *)
Theorem C6_plain_Uint8Array_is_published_as_json :
  sends (calls_of (relay mocks (PlainUint8Array [x68; x69])) initialized)
  = [(1, {| topic := "test-topic";
            messages := [ {| value := "{" ++ dquote ++ "0" ++ dquote ++ ":104,"
                                          ++ dquote ++ "1" ++ dquote ++ ":105}" |} ] |})]
  /\ Utf8.decode [x68; x69] = "hi"
  /\ payload_of (PlainUint8Array [x68; x69]) <> Utf8.decode [x68; x69].
Proof. repeat split. discriminate. Qed.

(** ** Tracing handles *)

(** The transaction, when one was started, is ended exactly once. *)
Lemma relay_ends_transaction_once env data m :
  transactions_started (calls_of (relay env data) m) = []
  /\ (forall x, transaction_ends x (calls_of (relay env data) m) = 0)
  \/ exists x,
      transactions_started (calls_of (relay env data) m) = [x]
      /\ transaction_ends x (calls_of (relay env data) m) = 1.
Proof.
  destruct m as [[options handle settings] local history].
  unfold calls_of.
  run_plugin; normalize_trace; rewrite skipn_prefix;
    cbn [transactions_started transaction_ends];
    solve [ left; split; [reflexivity | intros; reflexivity]
          | right; eexists; split; [reflexivity | rewrite Nat.eqb_refl; reflexivity] ].
Qed.

(** A span is never ended twice. *)
Lemma relay_ends_span_at_most_once env data m s :
  span_ends s (calls_of (relay env data) m) <= 1.
Proof.
  destruct m as [[options handle settings] local history].
  unfold calls_of.
  run_plugin; normalize_trace; rewrite skipn_prefix; cbn [span_ends];
    try destruct (Nat.eqb _ _); cbn; lia.
Qed.

(** C2: when the publish rejects (the test's [Error('Send failed')]),
    the call completes and the transaction it started is ended once, but
    the span it started is never ended. *)
Theorem C2_span_is_left_open_when_send_rejects :
  fst (relay mocks_send_rejects (Text "message") initialized) = Normal tt
  /\ spans_started (calls_of (relay mocks_send_rejects (Text "message")) initialized) = [5]
  /\ span_ends 5 (calls_of (relay mocks_send_rejects (Text "message")) initialized) = 0
  /\ transactions_started (calls_of (relay mocks_send_rejects (Text "message")) initialized) = [4]
  /\ transaction_ends 4 (calls_of (relay mocks_send_rejects (Text "message")) initialized) = 1.
Proof. repeat split. Qed.

(** On the path without exception both handles are ended once. *)
Example relay_success_ends_both :
  spans_started (calls_of (relay mocks (Text "message")) initialized) = [5]
  /\ span_ends 5 (calls_of (relay mocks (Text "message")) initialized) = 1
  /\ transaction_ends 4 (calls_of (relay mocks (Text "message")) initialized) = 1.
Proof. repeat split. Qed.

(** Whenever the publish call throws, no span is ended at all. *)
Lemma relay_send_failure_leaves_span_open env data m p record e ended :
  In (ProducerSend p record (Thrown e)) (calls_of (relay env data) m) ->
  span_ends ended (calls_of (relay env data) m) = 0.
Proof.
  destruct m as [[options handle settings] local history].
  unfold calls_of.
  run_plugin; normalize_trace; rewrite skipn_prefix; cbn [In span_ends];
    intros Hin; try reflexivity;
    repeat (destruct Hin as [Hin | Hin]; try discriminate Hin);
    try contradiction; congruence.
Qed.

(** ** [relay] on an instance without producer *)

Ltac ends_by Hend :=
  match goal with
  | H : span_end ?env ?t ?h = Thrown _ |- _ =>
      rewrite (proj1 (Hend t h)) in H; discriminate
  | H : transaction_end ?env ?t ?h = Thrown _ |- _ =>
      rewrite (proj2 (Hend t h)) in H; discriminate
  end.

(** C7, the claim as stated fails: on the freshly constructed instance
    the call returns, and nothing is given to the error logger. *)
Lemma C7_counterexample :
  producer (this constructed) = None
  /\ fst (relay mocks (Text "message") constructed) = Normal tt
  /\ error_logs (calls_of (relay mocks (Text "message")) constructed) = [].
Proof. repeat split. Qed.

(** C7, amended: without producer handle the optional call is skipped.
    No publish request is made; and when the tracer and logger calls
    return, the call completes normally and logs no error. *)
Theorem C7_relay_without_producer_skips_send :
  forall env data m,
    producer (this m) = None ->
    sends (calls_of (relay env data) m) = []
    /\ (tracer_starts env -> logger_logs env -> tracer_ends env ->
        fst (relay env data m) = Normal tt
        /\ error_logs (calls_of (relay env data) m) = []).
Proof.
  intros env data m.
  destruct m as [[options handle settings] local history].
  cbn [this producer]. intros ->. split.
  - unfold calls_of.
    run_plugin; normalize_trace; rewrite skipn_prefix; reflexivity.
  - intros Hstart Hlog Hend. unfold calls_of.
    run_plugin; try returns_by Hstart Hlog; try ends_by Hend;
      normalize_trace; rewrite skipn_prefix; split; reflexivity.
Qed.

Lemma C7_relay_without_producer_skips_send_witness :
  sends (calls_of (relay mocks (PlainUint8Array [x68; x69])) constructed) = []
  /\ fst (relay mocks (PlainUint8Array [x68; x69]) constructed) = Normal tt
  /\ error_logs (calls_of (relay mocks (PlainUint8Array [x68; x69])) constructed) = [].
Proof.
  pose proof (C7_relay_without_producer_skips_send
                mocks (PlainUint8Array [x68; x69]) constructed eq_refl) as [Hs Hrest].
  split; [exact Hs |].
  apply Hrest.
  - intros t name. split; eexists; reflexivity.
  - intros t message component. reflexivity.
  - intros t h. split; reflexivity.
Defined.

(** ** [init] *)

(** C8, the claim as stated fails: after a refused connection the
    exception reaches the caller, yet the instance holds the producer
    handle that [init] assigned before connecting. *)
Lemma C8_counterexample :
  fst (init mocks_connect_rejects constructed) = Thrown (JsError "Connection refused")
  /\ producer (this (snd (init mocks_connect_rejects constructed))) = Some 1
  /\ producer (this (snd (init mocks_connect_rejects constructed))) <> None.
Proof. repeat split. discriminate. Qed.

(** C8, amended: when the connect call of [init] fails, that exception
    is what [init] throws, connect was attempted once only, the success
    message is not logged, and the handle created by this call stays
    assigned to the instance. *)
Theorem C8_failed_connect_propagates :
  forall env m p e,
    In (ProducerConnect p (Thrown e)) (calls_of (init env) m) ->
    fst (init env m) = Thrown e
    /\ connects (calls_of (init env) m) = [p]
    /\ ~ In "Kafka producer connected" (info_logs (calls_of (init env) m))
    /\ producer (this (snd (init env m))) = Some p.
Proof.
  intros env m p e.
  destruct m as [[options handle settings] local history].
  unfold calls_of.
  run_plugin; normalize_trace; rewrite skipn_prefix;
    cbn [In connects info_logs]; intros Hin;
    repeat (destruct Hin as [Hin | Hin]; try discriminate Hin);
    try contradiction.
  injection Hin as -> ->.
  repeat split. intros [H | []]. discriminate H.
Qed.

Lemma C8_failed_connect_propagates_witness :
  fst (init mocks_connect_rejects constructed) = Thrown (JsError "Connection refused")
  /\ connects (calls_of (init mocks_connect_rejects) constructed) = [1]
  /\ ~ In "Kafka producer connected"
          (info_logs (calls_of (init mocks_connect_rejects) constructed))
  /\ producer (this (snd (init mocks_connect_rejects constructed))) = Some 1.
Proof.
  apply (C8_failed_connect_propagates mocks_connect_rejects constructed 1
           (JsError "Connection refused")).
  vm_compute. right. right. left. reflexivity.
Defined.

(** C10: [init] never looks at the handle the instance already holds.
    Its calls and its outcome are the same whatever that handle is; once
    the factory has returned a producer, that producer is assigned to the
    instance and is the one and only connection attempt; and with a
    logger, factory and connect that return, the call succeeds, on a
    ready instance as on a new one. *)
Theorem C10_init_always_creates_and_connects :
  forall env m,
    (forall old,
        calls_of (init env) (with_producer old m) = calls_of (init env) m
        /\ fst (init env (with_producer old m)) = fst (init env m))
    /\ (forall p,
          In (KafkaProducer (Normal p)) (calls_of (init env) m) ->
          producer (this (snd (init env m))) = Some p
          /\ connects (calls_of (init env) m) = [p])
    /\ (logger_logs env ->
        (forall t, exists p, kafka_producer env t = Normal p) ->
        (forall t p, producer_connect env t p = Normal tt) ->
        fst (init env m) = Normal tt
        /\ exists p, In (KafkaProducer (Normal p)) (calls_of (init env) m)).
Proof.
  intros env m.
  destruct m as [[options handle settings] local history].
  split; [| split].
  - intros old. unfold calls_of.
    run_plugin; normalize_trace; rewrite !skipn_prefix; split; reflexivity.
  - intros p. unfold calls_of.
    run_plugin; normalize_trace; rewrite skipn_prefix;
      cbn [In connects]; intros Hin;
      repeat (destruct Hin as [Hin | Hin]; try discriminate Hin);
      try contradiction;
      injection Hin as ->; split; reflexivity.
  - intros Hlog Hfactory Hconnect. unfold calls_of.
    run_plugin;
      try match goal with
          | H : loggerService_log _ ?t ?a ?b = Thrown _ |- _ =>
              rewrite (Hlog t a b) in H; discriminate
          | H : kafka_producer _ ?t = Thrown _ |- _ =>
              destruct (Hfactory t) as [? ?]; congruence
          | H : producer_connect _ ?t ?p = Thrown _ |- _ =>
              rewrite (Hconnect t p) in H; discriminate
          end.
    normalize_trace; rewrite skipn_prefix. split; [apply Hlog |].
    eexists. cbn [In]. right. left. reflexivity.
Qed.

Lemma C10_init_always_creates_and_connects_witness :
  producer (this initialized) = Some 1
  /\ producer (this (snd (init mocks initialized))) = Some 5
  /\ connects (calls_of (init mocks) initialized) = [5]
  /\ fst (init mocks initialized) = Normal tt.
Proof.
  pose proof (C10_init_always_creates_and_connects mocks initialized)
    as [_ [Hassign Hsucceeds]].
  split; [reflexivity |].
  assert (Hin : In (KafkaProducer (Normal 5)) (calls_of (init mocks) initialized)).
  { vm_compute. right. left. reflexivity. }
  destruct (Hassign 5 Hin) as [Hp Hc].
  split; [exact Hp | split; [exact Hc |]].
  apply Hsucceeds.
  - intros t message component. reflexivity.
  - intros t. eexists. reflexivity.
  - intros t p. reflexivity.
Defined.

(** ** [relay] and exceptions *)

(** C1, the claim as stated fails: with a logging sink whose methods
    throw, the exception of the error log inside the [catch] clause
    escapes [relay]. *)
Lemma C1_counterexample :
  fst (relay mocks_logger_down (Text "message") initialized)
  = Thrown (JsError "logger unavailable")
  /\ ~ (forall env data m, fst (relay env data m) = Normal tt).
Proof.
  split; [reflexivity |].
  intros H.
  specialize (H mocks_logger_down (Text "message") initialized).
  discriminate H.
Qed.

(** C1, amended: an exception of the [try] block never escapes as such.
    When it carries a message, the error logger is called with that
    message; and the call completes normally provided the error logger
    and the transaction's [end] return and the value thrown is not null
    or undefined. *)
Theorem C1_relay_absorbs_failures_of_try_block :
  forall env data m,
    (forall message,
        fst (relay_try env data (relay_entry m)) = Thrown (JsError message) ->
        exists r,
          In (LoggerError ("Kafka relay error: " ++ message) KafkaRelayPlugin_name r)
             (calls_of (relay env data) m))
    /\ ((forall t message component,
            loggerService_error env t message component = Normal tt) ->
        (forall t x, transaction_end env t x = Normal tt) ->
        (forall value,
            fst (relay_try env data (relay_entry m)) <> Thrown (JsNullish value)) ->
        fst (relay env data m) = Normal tt).
Proof.
  intros env data m.
  destruct m as [[options handle settings] local history].
  split.
  - intros message. unfold calls_of.
    run_plugin; intros Htry; try discriminate Htry;
      injection Htry as <-;
      normalize_trace; rewrite skipn_prefix; cbn [In];
      eexists; repeat (try (left; reflexivity); right).
  - intros Herror Hend. unfold calls_of.
    run_plugin; intros Htry; try reflexivity; try apply Herror;
      try (exfalso; eapply Htry; reflexivity);
      match goal with
      | H : loggerService_error _ ?t ?a ?b = Thrown _ |- _ =>
          rewrite (Herror t a b) in H; discriminate
      | H : transaction_end _ ?t ?x = Thrown _ |- _ =>
          rewrite (Hend t x) in H; discriminate
      end.
Qed.

Lemma C1_relay_absorbs_failures_of_try_block_witness :
  (exists r,
      In (LoggerError "Kafka relay error: Send failed" "KafkaRelayPlugin" r)
         (calls_of (relay mocks_send_rejects (Text "message")) initialized))
  /\ fst (relay mocks_send_rejects (Text "message") initialized) = Normal tt.
Proof.
  pose proof (C1_relay_absorbs_failures_of_try_block
                mocks_send_rejects (Text "message") initialized) as [Hlogged Hreturns].
  split.
  - apply (Hlogged "Send failed"). reflexivity.
  - apply Hreturns.
    + intros t message component. reflexivity.
    + intros t x. reflexivity.
    + intros value. vm_compute. discriminate.
Defined.

(** The scenario of the test suite: the rejection is logged and absorbed. *)
Example relay_handles_send_failure :
  fst (relay mocks_send_rejects (Text "message") initialized) = Normal tt
  /\ error_logs (calls_of (relay mocks_send_rejects (Text "message")) initialized)
     = ["Kafka relay error: Send failed"].
Proof. split; reflexivity. Qed.

(** What [relay] can still throw comes from its [catch] or [finally]
    clause: the error logger, the transaction's [end], or the read of
    [.message] on a null or undefined value. *)
Lemma relay_throws_only_from_handlers env data m e :
  fst (relay env data m) = Thrown e ->
  (exists message component,
      In (LoggerError message component (Thrown e)) (calls_of (relay env data) m))
  \/ (exists x, In (TransactionEnd x (Thrown e)) (calls_of (relay env data) m))
  \/ (exists value,
        fst (relay_try env data (relay_entry m)) = Thrown (JsNullish value)
        /\ e = JsError (TypeError_message value)).
Proof.
  destruct m as [[options handle settings] local history].
  unfold calls_of.
  run_plugin; intros Hthrown; try discriminate Hthrown;
    first [injection Hthrown as <- | rewrite Hthrown];
    normalize_trace; rewrite skipn_prefix; cbn [In];
    solve
      [ right; right; eexists; split; reflexivity
      | right; left; eexists; repeat (try (left; reflexivity); right)
      | left; do 2 eexists; repeat (try (left; reflexivity); right) ].
Qed.

(** * Further properties of the constructor, [init] and [relay] *)

(** ** Constructor *)

(** X1: a tier set in the configuration decides the TLS policy alone; the
    process environment's [NODE_ENV] is consulted only when the
    configuration leaves it unset. *)
Theorem X1_configuration_tier_takes_precedence :
  forall configuration v,
    NODE_ENV configuration = Some v ->
    forall env1 env2,
      constructed_ssl configuration env1 = constructed_ssl configuration env2.
Proof.
  intros configuration v Hv env1 env2.
  unfold constructed_ssl; simpl. unfold derive_ssl, isDev, tier, NODE_ENV_setting.
  rewrite Hv. reflexivity.
Qed.

Lemma X1_configuration_tier_takes_precedence_witness :
  constructed_ssl (makeConfig (Some "FAKE_CA_CERT") (Some "dev")) (Some "production")
  = constructed_ssl (makeConfig (Some "FAKE_CA_CERT") (Some "dev")) None.
Proof.
  apply (X1_configuration_tier_takes_precedence
           (makeConfig (Some "FAKE_CA_CERT") (Some "dev")) "dev").
  reflexivity.
Defined.

(** X2: the [ssl] option is never [true], and whenever it is an options
    object peer verification is off and the [ca] list is defined, holds
    at most one entry, which is the configured CA material, and never an
    empty string. *)
Theorem X2_tls_options_invariant :
  forall configuration process_env_NODE_ENV,
    constructed_ssl configuration process_env_NODE_ENV <> SslBool true
    /\ forall o,
        constructed_ssl configuration process_env_NODE_ENV = SslTls o ->
        rejectUnauthorized o = Some false
        /\ exists trusted,
            ca o = Some trusted
            /\ List.length trusted <= 1
            /\ ~ In EmptyString trusted
            /\ forall material, In material trusted ->
                                KAFKA_TLS_CA configuration = Some material.
Proof.
  intros configuration process_env_NODE_ENV.
  unfold constructed_ssl; simpl. unfold derive_ssl.
  destruct (isDev configuration process_env_NODE_ENV).
  - split; [discriminate |]. intros o H. discriminate H.
  - split; [discriminate |]. intros o H. injection H as <-. simpl.
    split; [reflexivity |]. eexists. split; [reflexivity |].
    destruct (KAFKA_TLS_CA configuration) as [[| c material] |]; simpl.
    + repeat split; auto. intros ? [].
    + repeat split; auto.
      * intros [H | []]. discriminate H.
      * intros ? [<- | []]. reflexivity.
    + repeat split; auto. intros ? [].
Qed.

Lemma X2_tls_options_invariant_witness :
  rejectUnauthorized {| rejectUnauthorized := Some false; ca := Some ["FAKE_CA_CERT"] |}
  = Some false
  /\ exists trusted,
      ca {| rejectUnauthorized := Some false; ca := Some ["FAKE_CA_CERT"] |} = Some trusted
      /\ List.length trusted <= 1
      /\ ~ In EmptyString trusted
      /\ forall material, In material trusted ->
           KAFKA_TLS_CA (makeConfig (Some "FAKE_CA_CERT") None) = Some material.
Proof.
  apply (proj2 (X2_tls_options_invariant
                  (makeConfig (Some "FAKE_CA_CERT") None) (Some "prod"))).
  reflexivity.
Defined.

(** ** [init] *)

(** X3: [init] makes its calls in a fixed order (the log of the target
    address, the creation of a producer, the connect on that producer, the
    confirmation log), stops at the first one that throws and throws that
    same exception. It makes no other call. The handle of the instance is
    replaced exactly when the producer was created. *)
Theorem X3_init_call_sequence :
  forall env m,
    let announce := LoggerLog (init_message (configuration (this m))) KafkaRelayPlugin_name in
    (exists e,
        calls_of (init env) m = [announce (Thrown e)]
        /\ fst (init env m) = Thrown e
        /\ producer (this (snd (init env m))) = producer (this m))
    \/ (exists e,
          calls_of (init env) m = [announce (Normal tt); KafkaProducer (Thrown e)]
          /\ fst (init env m) = Thrown e
          /\ producer (this (snd (init env m))) = producer (this m))
    \/ (exists p e,
          calls_of (init env) m
          = [announce (Normal tt); KafkaProducer (Normal p); ProducerConnect p (Thrown e)]
          /\ fst (init env m) = Thrown e
          /\ producer (this (snd (init env m))) = Some p)
    \/ (exists p r,
          calls_of (init env) m
          = [announce (Normal tt); KafkaProducer (Normal p); ProducerConnect p (Normal tt);
             LoggerLog "Kafka producer connected" KafkaRelayPlugin_name r]
          /\ fst (init env m) = r
          /\ producer (this (snd (init env m))) = Some p).
Proof.
  intros env m.
  destruct m as [[options handle settings] local history].
  unfold calls_of, init_message.
  run_plugin; normalize_trace; rewrite skipn_prefix.
  - right; right; right. do 2 eexists. repeat split.
  - right; right; left. do 2 eexists. repeat split.
  - right; left. eexists. repeat split.
  - left. eexists. repeat split.
Qed.

(** ** What [init] and [relay] leave alone *)

(** X4: [relay] never modifies the instance, whatever happens during the
    call; [init] modifies nothing but the producer handle. *)
Theorem X4_instance_fields_preserved :
  forall env data m,
    this (snd (relay env data m)) = this m
    /\ kafka (this (snd (init env m))) = kafka (this m)
    /\ configuration (this (snd (init env m))) = configuration (this m).
Proof.
  intros env data m.
  destruct m as [[options handle settings] local history].
  split; [| split]; run_plugin; reflexivity.
Qed.

(** X5: [relay] never creates a producer and never connects one: an
    instance without a connected producer is not repaired by relaying. *)
Theorem X5_relay_never_connects :
  forall env data m,
    forallb (fun e => negb (is_connection_call e)) (calls_of (relay env data) m) = true.
Proof.
  intros env data m.
  destruct m as [[options handle settings] local history].
  unfold calls_of.
  run_plugin; normalize_trace; rewrite skipn_prefix; reflexivity.
Qed.

(** X6: every log call of [init] and of [relay], informational or error,
    is tagged with the class name. *)
Theorem X6_logs_carry_component_name :
  forall env data m e component,
    In e (calls_of (init env) m ++ calls_of (relay env data) m)%list ->
    log_component e = Some component ->
    component = KafkaRelayPlugin_name.
Proof.
  intros env data m e component Hin Hcomponent.
  apply in_app_or in Hin.
  destruct m as [[options handle settings] local history].
  destruct Hin as [Hin | Hin]; revert Hin; unfold calls_of;
    run_plugin; normalize_trace; rewrite skipn_prefix; cbn [In]; intros Hin;
    repeat (destruct Hin as [Hin | Hin];
            [subst e; cbn in Hcomponent; congruence |]);
    contradiction.
Qed.

Lemma X6_logs_carry_component_name_witness :
  "KafkaRelayPlugin" = KafkaRelayPlugin_name.
Proof.
  apply (X6_logs_carry_component_name mocks_send_rejects (Text "message") initialized
           (LoggerError "Kafka relay error: Send failed" "KafkaRelayPlugin" (Normal tt))
           "KafkaRelayPlugin").
  - vm_compute. do 8 right. left. reflexivity.
  - reflexivity.
Defined.

(** ** [relay]: order of calls and tracing *)

(** X7: when every collaborator call returns, [relay] on an instance
    that holds a producer makes exactly these calls in this order: start of
    the transaction, start of the span, the log of the target stream, the
    publish, the end of the span and the end of the transaction (an [end]
    only for a handle that is not null); and it completes normally. *)
Theorem X7_relay_call_sequence :
  forall env data m p,
    producer (this m) = Some p ->
    tracer_starts env -> logger_logs env -> send_returns env -> tracer_ends env ->
    fst (relay env data m) = Normal tt
    /\ exists transaction span,
        calls_of (relay env data) m
        = (StartTransaction KafkaRelayPlugin_name (Normal transaction)
             :: StartSpan "relay" (Normal span)
             :: LoggerLog (relay_message (configuration (this m))) KafkaRelayPlugin_name
                  (Normal tt)
             :: ProducerSend p (relay_record (configuration (this m)) data) (Normal tt)
             :: end_calls transaction span)%list.
Proof.
  intros env data m p.
  destruct m as [[options handle settings] local history].
  cbn [this producer configuration]. intros -> Hstart Hlog Hsend Hend.
  unfold calls_of, relay_message, relay_record, end_calls.
  run_plugin; try returns_by Hstart Hlog; try ends_by Hend;
    try match goal with
        | H : producer_send _ ?t ?q ?r = Thrown _ |- _ =>
            rewrite (Hsend t q r) in H; discriminate
        end;
    normalize_trace; rewrite skipn_prefix;
    (split; [reflexivity |]);
    match goal with
    | |- exists transaction span,
          StartTransaction _ (Normal ?x) :: StartSpan _ (Normal ?y) :: _ = _ =>
        exists x, y; reflexivity
    end.
Qed.

Lemma X7_relay_call_sequence_witness :
  fst (relay mocks (Text "message") initialized) = Normal tt
  /\ exists transaction span,
      calls_of (relay mocks (Text "message")) initialized
      = (StartTransaction KafkaRelayPlugin_name (Normal transaction)
           :: StartSpan "relay" (Normal span)
           :: LoggerLog (relay_message (configuration (this initialized)))
                KafkaRelayPlugin_name (Normal tt)
           :: ProducerSend 1 (relay_record (configuration (this initialized)) (Text "message"))
                (Normal tt)
           :: end_calls transaction span)%list.
Proof.
  apply (X7_relay_call_sequence mocks (Text "message") initialized 1).
  - reflexivity.
  - intros t name. split; eexists; reflexivity.
  - intros t message component. reflexivity.
  - intros t p record. reflexivity.
  - intros t h. split; reflexivity.
Defined.

(** X8: a failure before the publish step costs the message: when the
    start of the transaction, the start of the span or the informational
    log throws, nothing is published. *)
Theorem X8_failure_before_publish_drops_message :
  forall env data m e,
    (exists name, In (StartTransaction name (Thrown e)) (calls_of (relay env data) m))
    \/ (exists name, In (StartSpan name (Thrown e)) (calls_of (relay env data) m))
    \/ (exists message component,
           In (LoggerLog message component (Thrown e)) (calls_of (relay env data) m)) ->
    sends (calls_of (relay env data) m) = [].
Proof.
  intros env data m e.
  destruct m as [[options handle settings] local history].
  unfold calls_of.
  run_plugin; normalize_trace; rewrite skipn_prefix; cbn [In sends];
    intros Hin; try reflexivity;
    destruct Hin as [[? Hin] | [[? Hin] | [? [? Hin]]]];
    repeat (destruct Hin as [Hin | Hin]; try discriminate Hin);
    try contradiction; congruence.
Qed.

Lemma X8_failure_before_publish_drops_message_witness :
  sends (calls_of (relay mocks_span_fails (Text "message")) initialized) = [].
Proof.
  apply (X8_failure_before_publish_drops_message
           mocks_span_fails (Text "message") initialized (JsError "apm unavailable")).
  right. left. exists "relay". vm_compute. right. left. reflexivity.
Defined.

(** X9: [relay] calls [end] only on handles it has itself started in this
    call, and it ends the span only when the publish step did not throw. *)
Theorem X9_relay_ends_only_its_own_handles :
  forall env data m,
    (forall s r, In (SpanEnd s r) (calls_of (relay env data) m) ->
                 spans_started (calls_of (relay env data) m) = [s]
                 /\ forall p record o,
                     In (ProducerSend p record o) (calls_of (relay env data) m) ->
                     o = Normal tt)
    /\ (forall x r, In (TransactionEnd x r) (calls_of (relay env data) m) ->
                    transactions_started (calls_of (relay env data) m) = [x]).
Proof.
  intros env data m.
  destruct m as [[options handle settings] local history].
  unfold calls_of. split.
  - intros ended r.
    run_plugin; normalize_trace; rewrite skipn_prefix;
      cbn [In spans_started]; intros Hin;
      repeat (destruct Hin as [Hin | Hin]; try discriminate Hin);
      try contradiction;
      injection Hin as <- <-;
      (split; [reflexivity |]);
      intros q record o Hsend;
      repeat (destruct Hsend as [Hsend | Hsend]; try discriminate Hsend);
      try contradiction; congruence.
  - intros ended r.
    run_plugin; normalize_trace; rewrite skipn_prefix;
      cbn [In transactions_started]; intros Hin;
      repeat (destruct Hin as [Hin | Hin]; try discriminate Hin);
      try contradiction;
      injection Hin as <- <-; reflexivity.
Qed.

Lemma X9_relay_ends_only_its_own_handles_witness :
  spans_started (calls_of (relay mocks (Text "message")) initialized) = [5]
  /\ transactions_started (calls_of (relay mocks (Text "message")) initialized) = [4].
Proof.
  pose proof (X9_relay_ends_only_its_own_handles mocks (Text "message") initialized)
    as [Hspan Htransaction].
  split.
  - apply (Hspan 5 (Normal tt)). vm_compute. do 4 right. left. reflexivity.
  - apply (Htransaction 4 (Normal tt)). vm_compute. do 5 right. left. reflexivity.
Defined.

(** X10: on every path, exceptions included, a transaction that [relay]
    started is ended exactly once. *)
Theorem X10_transaction_ended_exactly_once :
  forall env data m x,
    In x (transactions_started (calls_of (relay env data) m)) ->
    transaction_ends x (calls_of (relay env data) m) = 1.
Proof.
  intros env data m x Hin.
  destruct (relay_ends_transaction_once env data m) as [[Hnone _] | [y [Hone Hends]]].
  - rewrite Hnone in Hin. contradiction.
  - rewrite Hone in Hin. destruct Hin as [<- | []]. exact Hends.
Qed.

Lemma X10_transaction_ended_exactly_once_witness :
  transaction_ends 4 (calls_of (relay mocks_logger_down (Text "message")) initialized) = 1.
Proof.
  apply (X10_transaction_ended_exactly_once mocks_logger_down (Text "message") initialized 4).
  vm_compute. left. reflexivity.
Defined.

(** ** [relay]: error logging *)

(** X11: [relay] calls the error logger at most once; and on an instance
    that holds a producer, a call that returns without having logged an
    error has submitted its publish request and seen it return. *)
Theorem X11_silent_success_means_published :
  forall env data m,
    List.length (error_logs (calls_of (relay env data) m)) <= 1
    /\ forall p,
        producer (this m) = Some p ->
        fst (relay env data m) = Normal tt ->
        error_logs (calls_of (relay env data) m) = [] ->
        In (ProducerSend p (relay_record (configuration (this m)) data) (Normal tt))
           (calls_of (relay env data) m).
Proof.
  intros env data m.
  destruct m as [[options handle settings] local history].
  unfold calls_of, relay_record. split.
  - run_plugin; normalize_trace; rewrite skipn_prefix; cbn; lia.
  - intros p. cbn [this producer]. intros ->.
    run_plugin; normalize_trace; rewrite skipn_prefix; cbn [In error_logs fst];
      intros Hreturned Hsilent; try discriminate Hreturned; try discriminate Hsilent;
      repeat (try (left; reflexivity); right).
Qed.

Lemma X11_silent_success_means_published_witness :
  In (ProducerSend 1 (relay_record (configuration (this initialized)) (Text "message"))
        (Normal tt))
     (calls_of (relay mocks (Text "message")) initialized).
Proof.
  apply (proj2 (X11_silent_success_means_published mocks (Text "message") initialized) 1);
    reflexivity.
Defined.

(** X12: what the [catch] clause does with a value that is not an error
    object. A value without message is logged as
    ["Kafka relay error: undefined"]; for null or undefined the read of
    [.message] throws, so nothing is logged and, the transaction's [end]
    returning, [relay] itself throws that [TypeError], whose message
    names the value read. *)
Theorem X12_catch_of_values_without_message :
  forall env data m,
    (fst (relay_try env data (relay_entry m)) = Thrown JsNoMessage ->
     error_logs (calls_of (relay env data) m) = ["Kafka relay error: undefined"])
    /\ (forall value,
          fst (relay_try env data (relay_entry m)) = Thrown (JsNullish value) ->
          error_logs (calls_of (relay env data) m) = []
          /\ ((forall t x, transaction_end env t x = Normal tt) ->
              fst (relay env data m) = Thrown (JsError (TypeError_message value)))).
Proof.
  intros env data m.
  destruct m as [[options handle settings] local history].
  unfold calls_of. split.
  - run_plugin; intros Htry; try discriminate Htry;
      normalize_trace; rewrite skipn_prefix; reflexivity.
  - intros value.
    run_plugin; intros Htry; try discriminate Htry;
      injection Htry as ->;
      normalize_trace; rewrite skipn_prefix;
      (split; [reflexivity |]); intros Hend; try reflexivity;
      match goal with
      | H : transaction_end _ ?t ?x = Thrown _ |- _ =>
          rewrite (Hend t x) in H; discriminate
      end.
Qed.

Lemma X12_catch_of_values_without_message_witness :
  error_logs (calls_of (relay (mocks_send_throws JsNoMessage) (Text "message")) initialized)
  = ["Kafka relay error: undefined"]
  /\ error_logs (calls_of (relay (mocks_send_throws (JsNullish JsNull)) (Text "message"))
                   initialized)
     = []
  /\ fst (relay (mocks_send_throws (JsNullish JsNull)) (Text "message") initialized)
     = Thrown (JsError "Cannot read properties of null (reading 'message')")
  /\ fst (relay (mocks_send_throws (JsNullish JsUndefined)) (Text "message") initialized)
     = Thrown (JsError "Cannot read properties of undefined (reading 'message')").
Proof.
  split; [| split; [| split]].
  - apply (proj1 (X12_catch_of_values_without_message
                    (mocks_send_throws JsNoMessage) (Text "message") initialized)).
    reflexivity.
  - apply (proj2 (X12_catch_of_values_without_message
                    (mocks_send_throws (JsNullish JsNull)) (Text "message") initialized)
             JsNull).
    reflexivity.
  - apply (proj2 (X12_catch_of_values_without_message
                    (mocks_send_throws (JsNullish JsNull)) (Text "message") initialized)
             JsNull).
    + reflexivity.
    + intros t x. reflexivity.
  - apply (proj2 (X12_catch_of_values_without_message
                    (mocks_send_throws (JsNullish JsUndefined)) (Text "message") initialized)
             JsUndefined).
    + reflexivity.
    + intros t x. reflexivity.
Defined.

(** ** Composition of [init] and [relay] *)



Lemma relay_preserves_instance env data m :
  this (snd (relay env data m)) = this m.
Proof.
  destruct m as [[options handle settings] local history].
  run_plugin; reflexivity.
Qed.



(** With a producer held, a [relay] none of whose calls before the
    publish step threw has published its payload, once. *)
Lemma relay_publishes_unless_failed_before env data m p :
  producer (this m) = Some p ->
  forallb (fun e => negb (failed_before_publish e)) (calls_of (relay env data) m) = true ->
  sends (calls_of (relay env data) m)
  = [(p, relay_record (configuration (this m)) data)].
Proof.
  destruct m as [[options handle settings] local history].
  cbn [this producer configuration]. intros ->.
  unfold calls_of, relay_record.
  run_plugin; normalize_trace; rewrite skipn_prefix;
    cbn [forallb failed_before_publish negb andb sends]; intros Hcalls;
    try discriminate Hcalls; reflexivity.
Qed.

(** X14: a failed delivery is not sticky. Whatever happened during one
    [relay], be it a rejected publish or a failure of the tracer or the
    logger, the next one on the same instance publishes its own payload,
    once, to the same producer, as soon as its own calls before the
    publish step return. *)
Theorem X14_relay_after_relay :
  forall env first second m p,
    producer (this m) = Some p ->
    forallb (fun e => negb (failed_before_publish e))
            (calls_of (relay env second) (snd (relay env first m))) = true ->
    sends (calls_of (relay env second) (snd (relay env first m)))
    = [(p, relay_record (configuration (this m)) second)].
Proof.
  intros env first second m p Hp Hcalls.
  assert (Hsame := relay_preserves_instance env first m).
  rewrite (relay_publishes_unless_failed_before env second (snd (relay env first m)) p).
  - rewrite Hsame. reflexivity.
  - rewrite Hsame. exact Hp.
  - exact Hcalls.
Qed.

Lemma X14_relay_after_relay_witness :
  sends (calls_of (relay mocks_span_fails_once (Text "lost")) initialized) = []
  /\ error_logs (calls_of (relay mocks_span_fails_once (Text "lost")) initialized)
     = ["Kafka relay error: apm unavailable"]
  /\ sends (calls_of (relay mocks_span_fails_once (Text "next"))
              (snd (relay mocks_span_fails_once (Text "lost") initialized)))
     = [(1, relay_record (configuration (this initialized)) (Text "next"))].
Proof.
  split; [reflexivity | split; [reflexivity |]].
  apply (X14_relay_after_relay mocks_span_fails_once (Text "lost") (Text "next")
           initialized 1).
  - reflexivity.
  - vm_compute. reflexivity.
Defined.

(** ** Buffers of ASCII text *)

Lemma decode_ascii s :
  ascii_only s -> Utf8.decode (list_byte_of_string s) = s.
Proof.
  intros H. unfold Utf8.decode. rewrite (run_ascii _ H).
  apply string_of_list_byte_of_string.
Qed.

(** X15: for ASCII text, relaying the [Buffer] of the text behaves, call
    for call, like relaying the text itself. *)
Theorem X15_ascii_buffer_relays_as_text :
  forall env s m,
    ascii_only s ->
    relay env (NodeBuffer (list_byte_of_string s)) m = relay env (Text s) m.
Proof.
  intros env s m H.
  unfold relay, relay_try. cbn [payload_of].
  rewrite (decode_ascii s H). reflexivity.
Qed.

Lemma X15_ascii_buffer_relays_as_text_witness :
  relay mocks (NodeBuffer (list_byte_of_string "buffer-data")) initialized
  = relay mocks (Text "buffer-data") initialized.
Proof.
  apply (X15_ascii_buffer_relays_as_text mocks "buffer-data" initialized).
  unfold ascii_only. vm_compute list_byte_of_string.
  repeat (apply Forall_cons; [vm_compute; lia |]). apply Forall_nil.
Defined.
